(** * The status service of [python/backend.py]

    The module builds one FastAPI application object, registers one
    route on it ([GET /status]) and defines the handler of that route,
    [get_status], which returns a JSON response with a fixed content.

    The embedding is shallow.  Python values are an inductive type, the
    response and the request are records, the application object is a
    record holding the routing table, and a handler is a function in a
    small state-and-exception monad over the state of the running
    program (the application object, the other module-level variables
    and the trace of writes and external calls).  The web framework is
    not part of the repository: what the module receives from it is a
    parameter of the development, and the routing layer follows the
    router of the framework, with the default responses the
    specification names. *)

From Stdlib Require Import Ascii String List ZArith Bool Lia.
Import ListNotations.
Local Open Scope string_scope.
Local Open Scope Z_scope.
#[local] Set Warnings "-register-all".

(** ** Values, responses, requests *)

(** The Python values a response content is built from.  A [dict] is
    kept as the list of its items in insertion order, which is the
    order in which a JSON object is written. *)
Inductive pyval : Type :=
  | PyNone
  | PyBool (b : bool)
  | PyInt (z : Z)
  | PyStr (s : string)
  | PyList (items : list pyval)
  | PyDict (items : list (string * pyval)).

(** The names of the fields of a [dict] (no field for another value). *)
Definition dict_keys (v : pyval) : list string :=
  match v with
  | PyDict items => map fst items
  | _ => []
  end.

(** [d.get(k)] on a [dict]. *)
Fixpoint assoc_get (k : string) (items : list (string * pyval)) : option pyval :=
  match items with
  | [] => None
  | (k', v) :: rest => if String.eqb k k' then Some v else assoc_get k rest
  end.

Definition dict_get (k : string) (v : pyval) : option pyval :=
  match v with
  | PyDict items => assoc_get k items
  | _ => None
  end.

(** A response as the handler hands it to the framework. *)
Record Response : Type := mkResponse {
  status_code : Z;
  media_type : string;
  content : pyval
}.

(** The [Content-Type] header a response is sent with is its media type. *)
Definition content_type (r : Response) : string := media_type r.

(** An HTTP request as the framework receives it. *)
Record Request : Type := mkRequest {
  req_method : string;
  req_path : string;
  req_query : list (string * string);
  req_headers : list (string * string);
  req_body : list Byte.byte
}.

(** ** The application object *)

(** A route refers to the function that serves it.  The module defines
    one function, [get_status]; every other endpoint is one of the
    framework's own, known by its name. *)
Inductive Endpoint : Type :=
  | Handler_get_status
  | Framework_endpoint (name : string).

Record Route : Type := mkRoute {
  path : string;
  methods : list string;
  endpoint : Endpoint
}.

(** The application object: its routing table, in registration order,
    the middleware added by the user, and the exception handlers. *)
Record App : Type := mkApp {
  routes : list Route;
  user_middleware : list string;
  exception_handlers : list (string * string)
}.

(** ** The state of the running program *)

(** What a call can do to the outside: a write, or a call out of the
    process. *)
Inductive Effect : Type :=
  | Write (target : string) (data : list Byte.byte)
  | ExternalCall (callee : string) (args : list pyval).

(** The state a handler runs in: the application object bound to the
    module-level name [app], the other module-level variables, and the
    writes and external calls performed so far. *)
Record World : Type := mkWorld {
  world_app : App;
  globals : list (string * pyval);
  effects : list Effect
}.

(** A call returns a value or raises. *)
Inductive Result (A : Type) : Type :=
  | Ok (a : A)
  | Raise (exc : string).
Arguments Ok {A} a.
Arguments Raise {A} exc.

(** Computations over the program state. *)
Definition M (A : Type) : Type := World -> Result A * World.

Definition ret {A : Type} (a : A) : M A := fun w => (Ok a, w).

(** [n] invocations of [m] one after the other, each in the state the
    one before left; the results in order, and the final state. *)
Fixpoint invocations {A : Type} (n : nat) (m : M A) (w : World)
  : list (Result A) * World :=
  match n with
  | O => ([], w)
  | S n' =>
      let (x, w') := m w in
      let (xs, w'') := invocations n' m w' in
      (x :: xs, w'')
  end.

(** ** The module *)

(** Modelled from the spec: the framework's class [JSONResponse], which
    the module imports and which is not part of the repository.  A
    response built from a content alone has status code 200 and media
    type [application/json], and carries the content as its JSON body. *)
Definition JSONResponse (content : pyval) : Response :=
  {| status_code := 200;
     media_type := "application/json";
     content := content |}.

(** The literal of the handler. *)
Definition status_msg : string := "Servidor FastAPI ativo e funcional!".

(** [def get_status(): return JSONResponse(content={"msg": ...})].
    The function has no parameter and reads no variable. *)
Definition get_status : M Response :=
  ret (JSONResponse (PyDict [("msg", PyStr status_msg)])).

(** [app.get(path)(f)]: the decorator appends a route for method GET
    to the routing table of the application and touches nothing else. *)
Definition app_get (p : string) (f : Endpoint) (a : App) : App :=
  {| routes := routes a ++ [ {| path := p; methods := ["GET"]; endpoint := f |} ];
     user_middleware := user_middleware a;
     exception_handlers := exception_handlers a |}.

(** The route the module registers. *)
Definition status_route : Route :=
  {| path := "/status"; methods := ["GET"]; endpoint := Handler_get_status |}.

(** ** The routing layer *)

(** How far a route matches a request. *)
Inductive Match : Type := NONE | PARTIAL | FULL.

(** Modelled from the spec: the matching of the host routing layer, which
    is not part of the repository.  A route serves the requests on its
    path with one of its methods; a request on the path with another
    method matches the path only. *)
Definition matches (rt : Route) (req : Request) : Match :=
  if String.eqb (path rt) (req_path req) then
    if existsb (String.eqb (req_method req)) (methods rt) then FULL else PARTIAL
  else NONE.

(** The outcome of the search through the routing table. *)
Inductive Found : Type :=
  | Full (rt : Route)
  | Partial (rt : Route)
  | NoRoute.

(** Modelled from the spec: the search of the host routing layer.  The
    first route that serves the request wins; failing that, the first
    route on whose path the request is. *)
Fixpoint find_match (req : Request) (rs : list Route) (partial : option Route) : Found :=
  match rs with
  | [] =>
      match partial with
      | Some rt => Partial rt
      | None => NoRoute
      end
  | rt :: rest =>
      match matches rt req with
      | FULL => Full rt
      | PARTIAL =>
          find_match req rest
            (match partial with
             | None => Some rt
             | Some _ => partial
             end)
      | NONE => find_match req rest partial
      end
  end.

(** Does a routing table hold a route on this path? *)
Definition has_path (rs : list Route) (p : string) : bool :=
  existsb (fun rt => String.eqb (path rt) p) rs.

(** [p.rstrip("/")]: the path without its trailing slashes. *)
Fixpoint rstrip_slash (p : string) : string :=
  match p with
  | EmptyString => EmptyString
  | String c rest =>
      match rstrip_slash rest with
      | EmptyString => if Ascii.eqb c "/"%char then EmptyString else String c EmptyString
      | kept => String c kept
      end
  end.

(** [p.endswith("/")]. *)
Fixpoint ends_with_slash (p : string) : bool :=
  match p with
  | EmptyString => false
  | String c EmptyString => Ascii.eqb c "/"%char
  | String _ rest => ends_with_slash rest
  end.

(** The path the router tries when no route is on the path of a
    request: without the trailing slashes if there are some, with one
    added otherwise. *)
Definition toggle_slash (p : string) : string :=
  if ends_with_slash p then rstrip_slash p else p ++ "/".

(** The request on another path. *)
Definition with_path (p : string) (req : Request) : Request :=
  {| req_method := req_method req;
     req_path := p;
     req_query := req_query req;
     req_headers := req_headers req;
     req_body := req_body req |}.

(** Is there a route on the path of the request with its trailing
    slash toggled?  The root path is never toggled. *)
Definition redirects (rs : list Route) (req : Request) : bool :=
  negb (String.eqb (req_path req) "/") &&
  existsb
    (fun rt =>
       match matches rt (with_path (toggle_slash (req_path req)) req) with
       | NONE => false
       | _ => true
       end)
    rs.

(** ** A host to run the module on *)

(** An application object like the one the framework's constructor
    returns when called without arguments: the schema and the
    documentation pages, no user middleware, the framework's own
    exception handlers. *)
Definition sample_FastAPI : App :=
  {| routes :=
       [ {| path := "/openapi.json"; methods := ["GET"; "HEAD"];
            endpoint := Framework_endpoint "openapi" |};
         {| path := "/docs"; methods := ["GET"; "HEAD"];
            endpoint := Framework_endpoint "swagger_ui_html" |};
         {| path := "/docs/oauth2-redirect"; methods := ["GET"; "HEAD"];
            endpoint := Framework_endpoint "swagger_ui_redirect" |};
         {| path := "/redoc"; methods := ["GET"; "HEAD"];
            endpoint := Framework_endpoint "redoc_html" |} ];
     user_middleware := [];
     exception_handlers :=
       [ ("HTTPException", "http_exception_handler");
         ("RequestValidationError", "request_validation_exception_handler") ] |}.

(** The pages of that host: a fixed page for each of its endpoints. *)
Definition sample_endpoint (name : string) (req : Request) : M Response :=
  ret {| status_code := 200; media_type := "text/html"; content := PyStr name |}.

(** The body of the default error responses of that host. *)
Definition sample_error_body (code : Z) : pyval :=
  PyDict [("detail", PyInt code)].

(** Requests to try the service on. *)
Definition get_request (p : string) : Request :=
  {| req_method := "GET"; req_path := p; req_query := [];
     req_headers := []; req_body := [] |}.

Definition post_request (p : string) : Request :=
  {| req_method := "POST"; req_path := p; req_query := [];
     req_headers := []; req_body := [] |}.

(** A request on the status path that carries a query, headers and a body. *)
Definition loaded_request : Request :=
  {| req_method := "GET"; req_path := "/status";
     req_query := [("verbose", "1")];
     req_headers := [("accept", "text/plain"); ("x-trace", "abc")];
     req_body := [Byte.x7b; Byte.x7d] |}.

(** The program state once the module is loaded on that host. *)
Definition sample_world : World :=
  {| world_app := app_get "/status" Handler_get_status sample_FastAPI;
     globals := [];
     effects := [] |}.

(** ** The module on a host *)

Section Host.

(** The application object the constructor call [FastAPI()] returns,
    with whatever the framework sets up on it by itself. *)
Variable FastAPI : App.

(** What the endpoints of the framework do. *)
Variable framework_endpoint : string -> Request -> M Response.

(** The media type and the body of the default error responses of the host. *)
Variable error_media_type : string.
Variable error_body : Z -> pyval.

(** The serializer of the host, from a content to the bytes of a body. *)
Variable json_dumps : pyval -> list Byte.byte.

(** [app = FastAPI()], then [@app.get("/status")] on [get_status]: the
    application object once the module is loaded. *)
Definition app : App := app_get "/status" Handler_get_status FastAPI.

(** The bytes a response is sent as. *)
Definition body (r : Response) : list Byte.byte := json_dumps (content r).

(** The call of the function behind a route.  [get_status] has no
    parameter, so nothing of the request is handed to it. *)
Definition call_endpoint (f : Endpoint) (req : Request) : M Response :=
  match f with
  | Handler_get_status => get_status
  | Framework_endpoint name => framework_endpoint name req
  end.

(** Modelled from the spec: the default response of the host for a
    status code; the module customizes none of them. *)
Definition default_response (code : Z) : Response :=
  {| status_code := code;
     media_type := error_media_type;
     content := error_body code |}.

(** Modelled from the spec: the host routing layer, which is not part of
    the repository.  The spec gives the outcomes (sections 4.1, 7 and
    8): the default not-found response (404) on a path no route is on,
    the default method-not-allowed response (405) for a method that
    the route on the path does not have, the default server error
    (500) when a handler raises.  The order of the steps is that of
    the router of the framework: the first route that serves the
    request; failing that, 405 if some route is on the path; failing
    that, a redirect (307) if some route is on the path with its
    trailing slash toggled; failing that, 404. *)
Definition handle (req : Request) (w : World) : Response * World :=
  match find_match req (routes (world_app w)) None with
  | Full rt =>
      match call_endpoint (endpoint rt) req w with
      | (Ok r, w') => (r, w')
      | (Raise _, w') => (default_response 500, w')
      end
  | Partial _ => (default_response 405, w)
  | NoRoute =>
      if redirects (routes (world_app w)) req
      then (default_response 307, w)
      else (default_response 404, w)
  end.

(** *** The routing table *)

Lemma matches_other_path (rt : Route) (req : Request) :
  String.eqb (path rt) (req_path req) = false -> matches rt req = NONE.
Proof. unfold matches. intros ->. reflexivity. Qed.

Lemma has_path_false (rs : list Route) (p : string) :
  has_path rs p = false ->
  forall rt, In rt rs -> String.eqb (path rt) p = false.
Proof.
  unfold has_path. intros H rt Hin.
  destruct (String.eqb (path rt) p) eqn:E; [ | reflexivity ].
  assert (existsb (fun rt0 => String.eqb (path rt0) p) rs = true) as Hex.
  { apply existsb_exists. exists rt. split; assumption. }
  congruence.
Qed.

(** Routes on other paths play no part in the search. *)
Lemma find_match_skip (req : Request) (pre rest : list Route) (partial : option Route) :
  has_path pre (req_path req) = false ->
  find_match req (pre ++ rest) partial = find_match req rest partial.
Proof.
  induction pre as [ | rt pre IH ]; intros H; simpl.
  - reflexivity.
  - simpl in H. apply orb_false_iff in H. destruct H as [Hrt Hpre].
    rewrite (matches_other_path rt req Hrt). apply IH. exact Hpre.
Qed.

Lemma matches_status_get (req : Request) :
  req_method req = "GET" -> req_path req = "/status" ->
  matches status_route req = FULL.
Proof. unfold matches. intros -> ->. reflexivity. Qed.

Lemma matches_status_post (req : Request) :
  req_method req = "POST" -> req_path req = "/status" ->
  matches status_route req = PARTIAL.
Proof. unfold matches. intros -> ->. reflexivity. Qed.


(** Without a route of the framework on the status path, a GET request
    on it reaches the route of the module. *)
Lemma find_match_status (req : Request) :
  has_path (routes FastAPI) "/status" = false ->
  req_method req = "GET" -> req_path req = "/status" ->
  find_match req (routes app) None = Full status_route.
Proof.
  intros Hfree Hm Hp. unfold app, app_get. cbn [routes]. fold status_route.
  rewrite find_match_skip by (rewrite Hp; exact Hfree).
  cbn [find_match]. rewrite (matches_status_get req Hm Hp). reflexivity.
Qed.


(** What the search through a routing table can end on. *)
Lemma find_match_sound (req : Request) (rs : list Route) :
  forall partial,
    match find_match req rs partial with
    | Full rt => In rt rs /\ matches rt req = FULL
    | Partial rt => partial = Some rt \/ (In rt rs /\ matches rt req = PARTIAL)
    | NoRoute => partial = None /\ Forall (fun rt => matches rt req = NONE) rs
    end.
Proof.
  induction rs as [ | rt rs IH ]; intros partial; cbn [find_match].
  - destruct partial; [ left; reflexivity | split; constructor ].
  - destruct (matches rt req) eqn:E.
    + specialize (IH partial). destruct (find_match req rs partial).
      * destruct IH as [Hin Hm]. split; [ right; exact Hin | exact Hm ].
      * destruct IH as [ -> | [Hin Hm] ]; [ left; reflexivity | right; split; [ right; exact Hin | exact Hm ] ].
      * destruct IH as [Hp Hall]. split; [ exact Hp | constructor; assumption ].
    + match goal with |- context [find_match req rs ?p] => specialize (IH p) end.
      destruct partial as [ p0 | ].
      * destruct (find_match req rs (Some p0)).
        -- destruct IH as [Hin Hm]. split; [ right; exact Hin | exact Hm ].
        -- destruct IH as [ Hp | [Hin Hm] ]; [ left; exact Hp | right; split; [ right; exact Hin | exact Hm ] ].
        -- destruct IH as [Hp _]. discriminate Hp.
      * destruct (find_match req rs (Some rt)).
        -- destruct IH as [Hin Hm]. split; [ right; exact Hin | exact Hm ].
        -- destruct IH as [ Hp | [Hin Hm] ].
           ++ injection Hp as <-. right. split; [ left; reflexivity | exact E ].
           ++ right. split; [ right; exact Hin | exact Hm ].
        -- destruct IH as [Hp _]. discriminate Hp.
    + split; [ left; reflexivity | exact E ].
Qed.

(** *** The handler *)

Lemma get_status_run (w : World) :
  get_status w = (Ok (JSONResponse (PyDict [("msg", PyStr status_msg)])), w).
Proof. reflexivity. Qed.

Lemma invocations_get_status (n : nat) (w : World) :
  invocations n get_status w = (repeat (fst (get_status w)) n, w).
Proof.
  induction n as [ | n IH ]; cbn [invocations repeat].
  - reflexivity.
  - rewrite get_status_run. rewrite IH. reflexivity.
Qed.

Lemma last_repeat {A : Type} (x d : A) (n : nat) :
  (1 <= n)%nat -> last (repeat x n) d = x.
Proof.
  induction n as [ | n IH ]; intros Hn; [ lia | ].
  destruct n as [ | n ]; [ reflexivity | ].
  change (repeat x (S (S n))) with (x :: repeat x (S n)).
  change (last (x :: repeat x (S n)) d) with (last (repeat x (S n)) d).
  apply IH. lia.
Qed.

(** *** The contract of the status service *)

(** C1.  For every GET request on [/status], the route of the module
    serves the request and the handler produces a response with status
    code 200, content type [application/json] and the JSON object
    [{"msg": "Servidor FastAPI ativo e funcional!"}] as its body; where
    the framework has set up no route of its own on that path, this is
    the response of the application. *)
Theorem get_status_response (req : Request) (w : World) :
  req_method req = "GET" ->
  req_path req = "/status" ->
  matches status_route req = FULL /\
  exists r : Response,
    call_endpoint (endpoint status_route) req w = (Ok r, w) /\
    status_code r = 200 /\
    content_type r = "application/json" /\
    content r = PyDict [("msg", PyStr "Servidor FastAPI ativo e funcional!")] /\
    (has_path (routes FastAPI) "/status" = false ->
     world_app w = app ->
     handle req w = (r, w)).
Proof.
  intros Hm Hp. split; [ exact (matches_status_get req Hm Hp) | ].
  exists (JSONResponse (PyDict [("msg", PyStr status_msg)])).
  repeat split.
  intros Hfree Happ. unfold handle. rewrite Happ.
  rewrite (find_match_status req Hfree Hm Hp). reflexivity.
Qed.

(** C2.  Any two invocations of the handler, in whatever states of the
    program, both return, with the same response and so with the same
    bytes as body. *)
Theorem get_status_deterministic (w1 w2 : World) :
  exists r1 r2 : Response,
    fst (get_status w1) = Ok r1 /\
    fst (get_status w2) = Ok r2 /\
    r1 = r2 /\
    body r1 = body r2.
Proof.
  exists (JSONResponse (PyDict [("msg", PyStr status_msg)])).
  exists (JSONResponse (PyDict [("msg", PyStr status_msg)])).
  repeat split.
Qed.

(** C3.  For every [n >= 1], [n] invocations of the handler in a row
    come to one invocation: each of them returns what a single
    invocation returns, the last one included, they end in the state
    they started from, and every later request is answered as it would
    have been without them. *)
Theorem get_status_idempotent (n : nat) (w : World) :
  (1 <= n)%nat ->
  fst (invocations n get_status w) = repeat (fst (get_status w)) n /\
  last (fst (invocations n get_status w)) (Raise "no call") = fst (get_status w) /\
  snd (invocations n get_status w) = snd (get_status w) /\
  snd (invocations n get_status w) = w /\
  forall req : Request,
    handle req (snd (invocations n get_status w)) = handle req w.
Proof.
  intros Hn. rewrite invocations_get_status. cbn [fst snd].
  split; [ reflexivity | ].
  split; [ apply last_repeat; exact Hn | ].
  repeat split.
Qed.

(** C4.  An invocation of the handler leaves the whole state of the
    program as it was: the application object, the module-level
    variables, and the trace of writes and external calls. *)
Theorem get_status_no_effect (w : World) :
  snd (get_status w) = w /\
  world_app (snd (get_status w)) = world_app w /\
  globals (snd (get_status w)) = globals w /\
  effects (snd (get_status w)) = effects w.
Proof. repeat split. Qed.

(** C5.  The content of every response of the handler, whatever the
    request, the state, and the number of invocations before it, has
    exactly one field, [msg], and that field is the string
    ["Servidor FastAPI ativo e funcional!"]. *)
Theorem status_content_invariant (n : nat) (req : Request) (w : World) :
  Forall
    (fun x : Result Response =>
       exists r : Response,
         x = Ok r /\
         dict_keys (content r) = ["msg"] /\
         dict_get "msg" (content r) =
           Some (PyStr "Servidor FastAPI ativo e funcional!"))
    (fst (invocations n (call_endpoint Handler_get_status req) w)).
Proof.
  cbn [call_endpoint]. rewrite invocations_get_status. cbn [fst].
  apply Forall_forall. intros x Hx. apply repeat_spec in Hx. subst x.
  exists (JSONResponse (PyDict [("msg", PyStr status_msg)])).
  repeat split.
Qed.

(** C6.  For every POST request on [/status], the route of the module
    matches the path only, so its handler is not called; the response
    is the default method-not-allowed response of the host, with
    status 405, and the state is untouched, unless a route of the
    framework itself serves the request. *)
Theorem post_status_not_allowed (req : Request) (w : World) :
  world_app w = app ->
  req_method req = "POST" ->
  req_path req = "/status" ->
  matches status_route req = PARTIAL /\
  ((handle req w = (default_response 405, w) /\
    status_code (default_response 405) = 405)
   \/
   (exists rt : Route,
      In rt (routes FastAPI) /\
      find_match req (routes app) None = Full rt)).
Proof.
  intros Happ Hm Hp.
  pose proof (matches_status_post req Hm Hp) as Hpartial.
  split; [ exact Hpartial | ].
  pose proof (find_match_sound req (routes app) None) as Hs.
  unfold handle. rewrite Happ.
  destruct (find_match req (routes app) None) as [ rt | rt | ].
  - right. exists rt. split; [ | reflexivity ].
    destruct Hs as [Hin Hfull]. unfold app, app_get in Hin. cbn [routes] in Hin.
    apply in_app_or in Hin. destruct Hin as [ Hin | [ <- | [] ] ]; [ exact Hin | ].
    fold status_route in Hfull. congruence.
  - left. split; reflexivity.
  - destruct Hs as [_ Hall]. rewrite Forall_forall in Hall.
    assert (matches status_route req = NONE) as Hnone.
    { apply Hall. unfold app, app_get. cbn [routes]. apply in_or_app.
      right. left. reflexivity. }
    congruence.
Qed.


(** C9.  Two GET requests on [/status], whatever their queries, headers
    and bodies, get the same result from the handler; where the
    framework has set up no route of its own on that path, they get
    the same response from the application. *)
Theorem get_status_ignores_request (r1 r2 : Request) (w : World) :
  req_method r1 = "GET" -> req_path r1 = "/status" ->
  req_method r2 = "GET" -> req_path r2 = "/status" ->
  call_endpoint (endpoint status_route) r1 w =
    call_endpoint (endpoint status_route) r2 w /\
  (has_path (routes FastAPI) "/status" = false ->
   world_app w = app ->
   handle r1 w = handle r2 w).
Proof.
  intros Hm1 Hp1 Hm2 Hp2. split; [ reflexivity | ].
  intros Hfree Happ. unfold handle. rewrite Happ.
  rewrite (find_match_status r1 Hfree Hm1 Hp1).
  rewrite (find_match_status r2 Hfree Hm2 Hp2).
  reflexivity.
Qed.

(** C10.  Loading the module adds exactly one route to the application
    object the framework built, method GET on path [/status] served by
    [get_status], after the routes of the framework; the middleware
    and the exception handlers stay those of the framework. *)
Theorem app_routes :
  routes app = (routes FastAPI ++ [status_route])%list /\
  List.length (routes app) = S (List.length (routes FastAPI)) /\
  path status_route = "/status" /\
  methods status_route = ["GET"] /\
  endpoint status_route = Handler_get_status /\
  user_middleware app = user_middleware FastAPI /\
  exception_handlers app = exception_handlers FastAPI.
Proof.
  repeat split.
  unfold app, app_get. cbn [routes]. rewrite length_app. simpl. lia.
Qed.

(** *** Beyond the contract *)

Lemma matches_status_other_method (req : Request) :
  req_method req <> "GET" -> req_path req = "/status" ->
  matches status_route req = PARTIAL.
Proof.
  intros Hm Hp. unfold matches, status_route. cbn [path methods existsb].
  rewrite Hp. rewrite String.eqb_refl.
  apply String.eqb_neq in Hm. rewrite Hm. reflexivity.
Qed.

(** A route that serves a request in a routing table still serves it
    when routes are appended to the table. *)
Lemma find_match_full_app (req : Request) (rs extra : list Route) (rt : Route) :
  forall partial,
    find_match req rs partial = Full rt ->
    find_match req (rs ++ extra) partial = Full rt.
Proof.
  induction rs as [ | r rs IH ]; intros partial H.
  - cbn [find_match] in H. destruct partial; discriminate H.
  - rewrite <- app_comm_cons. cbn [find_match] in *.
    destruct (matches r req); [ apply IH; exact H | apply IH; exact H | exact H ].
Qed.

(** The decorator registers for GET alone: a request on [/status] with
    any other method (HEAD, POST, PUT, ...) is on the path of the
    route of the module but is not served by it, so [get_status] is
    not called; the response is the default method-not-allowed
    response of the host, with status 405, and the state is untouched,
    unless a route of the framework itself serves the request. *)
Theorem status_other_method_not_allowed (req : Request) (w : World) :
  world_app w = app ->
  req_method req <> "GET" ->
  req_path req = "/status" ->
  matches status_route req = PARTIAL /\
  ((handle req w = (default_response 405, w) /\
    status_code (default_response 405) = 405)
   \/
   (exists rt : Route,
      In rt (routes FastAPI) /\
      find_match req (routes app) None = Full rt)).
Proof.
  intros Happ Hm Hp.
  pose proof (matches_status_other_method req Hm Hp) as Hpartial.
  split; [ exact Hpartial | ].
  pose proof (find_match_sound req (routes app) None) as Hs.
  unfold handle. rewrite Happ.
  destruct (find_match req (routes app) None) as [ rt | rt | ].
  - right. exists rt. split; [ | reflexivity ].
    destruct Hs as [Hin Hfull]. unfold app, app_get in Hin. cbn [routes] in Hin.
    apply in_app_or in Hin. destruct Hin as [ Hin | [ <- | [] ] ]; [ exact Hin | ].
    fold status_route in Hfull. congruence.
  - left. split; reflexivity.
  - destruct Hs as [_ Hall]. rewrite Forall_forall in Hall.
    assert (matches status_route req = NONE) as Hnone.
    { apply Hall. unfold app, app_get. cbn [routes]. apply in_or_app.
      right. left. reflexivity. }
    congruence.
Qed.

End Host.

(** The decorator adds its route after those the application already
    has, so it takes no request away from them: a request that a route
    of the application serves before the registration is served by the
    same route after it, whatever the path and the function
    registered. *)
Theorem app_get_keeps_served (a : App) (p : string) (f : Endpoint)
    (req : Request) (rt : Route) :
  find_match req (routes a) None = Full rt ->
  find_match req (routes (app_get p f a)) None = Full rt.
Proof.
  intros H. unfold app_get. cbn [routes].
  apply find_match_full_app. exact H.
Qed.

(** ** The service on the sample host *)

(** The responses of the application on the sample host. *)
Local Abbreviation sample_handle :=
  (handle sample_endpoint "application/json" sample_error_body).

Example sample_get_status :
  sample_handle (get_request "/status") sample_world =
    ({| status_code := 200;
        media_type := "application/json";
        content := PyDict [("msg", PyStr "Servidor FastAPI ativo e funcional!")] |},
     sample_world).
Proof. reflexivity. Qed.

Example sample_post_status :
  status_code (fst (sample_handle (post_request "/status") sample_world)) = 405.
Proof. reflexivity. Qed.

Example sample_get_unknown :
  status_code (fst (sample_handle (get_request "/unknown") sample_world)) = 404.
Proof. reflexivity. Qed.

(** The status path with a trailing slash is redirected, not served. *)
Example sample_get_status_slash :
  toggle_slash "/status/" = "/status" /\
  status_code (fst (sample_handle (get_request "/status/") sample_world)) = 307.
Proof. split; reflexivity. Qed.

(** A path the framework itself serves on the sample host. *)
Example sample_get_docs :
  has_path (routes sample_FastAPI) "/docs" = true /\
  status_code (fst (sample_handle (get_request "/docs") sample_world)) = 200.
Proof. split; reflexivity. Qed.

Lemma get_status_response_witness :
  req_method loaded_request = "GET" /\
  req_path loaded_request = "/status" /\
  matches status_route loaded_request = FULL /\
  exists r : Response,
    call_endpoint sample_endpoint (endpoint status_route) loaded_request sample_world
      = (Ok r, sample_world) /\
    status_code r = 200 /\
    content_type r = "application/json" /\
    content r = PyDict [("msg", PyStr "Servidor FastAPI ativo e funcional!")] /\
    (has_path (routes sample_FastAPI) "/status" = false ->
     world_app sample_world = app sample_FastAPI ->
     sample_handle loaded_request sample_world = (r, sample_world)).
Proof.
  split; [ reflexivity | ].
  split; [ reflexivity | ].
  apply (get_status_response sample_FastAPI sample_endpoint "application/json"
           sample_error_body loaded_request sample_world); reflexivity.
Defined.

Lemma get_status_idempotent_witness :
  (1 <= 3)%nat /\
  fst (invocations 3 get_status sample_world) =
    repeat (fst (get_status sample_world)) 3 /\
  last (fst (invocations 3 get_status sample_world)) (Raise "no call") =
    fst (get_status sample_world) /\
  snd (invocations 3 get_status sample_world) = snd (get_status sample_world) /\
  snd (invocations 3 get_status sample_world) = sample_world /\
  forall req : Request,
    sample_handle req (snd (invocations 3 get_status sample_world)) =
      sample_handle req sample_world.
Proof.
  split; [ lia | ].
  apply (get_status_idempotent sample_endpoint "application/json"
           sample_error_body 3 sample_world); lia.
Defined.

Lemma post_status_not_allowed_witness :
  world_app sample_world = app sample_FastAPI /\
  req_method (post_request "/status") = "POST" /\
  req_path (post_request "/status") = "/status" /\
  matches status_route (post_request "/status") = PARTIAL /\
  ((sample_handle (post_request "/status") sample_world =
      (default_response "application/json" sample_error_body 405, sample_world) /\
    status_code (default_response "application/json" sample_error_body 405) = 405)
   \/
   (exists rt : Route,
      In rt (routes sample_FastAPI) /\
      find_match (post_request "/status") (routes (app sample_FastAPI)) None = Full rt)).
Proof.
  split; [ reflexivity | ].
  split; [ reflexivity | ].
  split; [ reflexivity | ].
  apply (post_status_not_allowed sample_FastAPI sample_endpoint "application/json"
           sample_error_body (post_request "/status") sample_world); reflexivity.
Defined.



Lemma get_status_ignores_request_witness :
  req_method (get_request "/status") = "GET" /\
  req_path (get_request "/status") = "/status" /\
  req_method loaded_request = "GET" /\
  req_path loaded_request = "/status" /\
  call_endpoint sample_endpoint (endpoint status_route) (get_request "/status") sample_world =
    call_endpoint sample_endpoint (endpoint status_route) loaded_request sample_world /\
  (has_path (routes sample_FastAPI) "/status" = false ->
   world_app sample_world = app sample_FastAPI ->
   sample_handle (get_request "/status") sample_world =
     sample_handle loaded_request sample_world).
Proof.
  do 4 (split; [ reflexivity | ]).
  apply (get_status_ignores_request sample_FastAPI sample_endpoint "application/json"
           sample_error_body (get_request "/status") loaded_request sample_world);
    reflexivity.
Defined.

Lemma status_other_method_not_allowed_witness :
  world_app sample_world = app sample_FastAPI /\
  req_method (mkRequest "HEAD" "/status" [] [] []) <> "GET" /\
  req_path (mkRequest "HEAD" "/status" [] [] []) = "/status" /\
  matches status_route (mkRequest "HEAD" "/status" [] [] []) = PARTIAL /\
  ((sample_handle (mkRequest "HEAD" "/status" [] [] []) sample_world =
      (default_response "application/json" sample_error_body 405, sample_world) /\
    status_code (default_response "application/json" sample_error_body 405) = 405)
   \/
   (exists rt : Route,
      In rt (routes sample_FastAPI) /\
      find_match (mkRequest "HEAD" "/status" [] [] [])
        (routes (app sample_FastAPI)) None = Full rt)).
Proof.
  split; [ reflexivity | ].
  split; [ discriminate | ].
  split; [ reflexivity | ].
  apply (status_other_method_not_allowed sample_FastAPI sample_endpoint
           "application/json" sample_error_body
           (mkRequest "HEAD" "/status" [] [] []) sample_world);
    [ reflexivity | discriminate | reflexivity ].
Defined.

Lemma app_get_keeps_served_witness :
  find_match (get_request "/docs") (routes sample_FastAPI) None =
    Full (mkRoute "/docs" ["GET"; "HEAD"] (Framework_endpoint "swagger_ui_html")) /\
  find_match (get_request "/docs")
    (routes (app_get "/status" Handler_get_status sample_FastAPI)) None =
    Full (mkRoute "/docs" ["GET"; "HEAD"] (Framework_endpoint "swagger_ui_html")).
Proof.
  split; [ reflexivity | ].
  apply (app_get_keeps_served sample_FastAPI "/status" Handler_get_status
           (get_request "/docs")); reflexivity.
Defined.
